(** * Automatic door firmware: the MQTT command handler of [app_main.c]

    A shallow embedding of [software/app_main.c].  The firmware reacts to
    events of the ESP-MQTT client: on connect it publishes a status message
    and subscribes to the control topic, on a data event it compares topic and
    payload with [strncmp] and drives one GPIO.

    The collaborators (GPIO driver, MQTT client, NVS, network stack) are not
    part of the repository.  Their calls are recorded, in program order, in
    the [calls] of a [world]; the level written last to every pin is kept in
    [gpio_out].  What the collaborators return is taken from a [platform],
    over which every statement is universally quantified.  The [ESP_LOGx]
    macros only write to the log sink and are left out. *)

From Stdlib Require Import ZArith String Ascii List Bool Lia.
From stdpp Require Import gmap strings list.
Import ListNotations.

Local Open Scope string_scope.
Local Open Scope Z_scope.

(** ** C strings and [strncmp] *)

Module CString.

(** A C string literal is embedded as the Rocq string of its characters
    before the terminating NUL; reading at its end yields that NUL. *)
Definition NUL : ascii := Ascii.zero.

Definition cur (s : string) : ascii :=
  match s with
  | EmptyString => NUL
  | String c _ => c
  end.

Definition next (s : string) : string :=
  match s with
  | EmptyString => EmptyString
  | String _ s' => s'
  end.

Definition uchar (c : ascii) : Z := Z.of_nat (nat_of_ascii c).

(** [strncmp s1 s2 n]: compares at most [n] characters, stops at the first
    difference or after a NUL, and returns the difference of the two
    characters as [unsigned char]. *)
Fixpoint strncmp (s1 s2 : string) (n : nat) : Z :=
  match n with
  | O => 0
  | S n' =>
      let c1 := cur s1 in
      let c2 := cur s2 in
      if negb (Ascii.eqb c1 c2) then uchar c1 - uchar c2
      else if Ascii.eqb c1 NUL then 0
      else strncmp (next s1) (next s2) n'
  end.

Definition strlen (s : string) : nat := String.length s.

(** No character of [s] is NUL. *)
Fixpoint nul_free (s : string) : bool :=
  match s with
  | EmptyString => true
  | String c s' => negb (Ascii.eqb c NUL) && nul_free s'
  end.

End CString.
Import CString.

(** ** Types of the ESP-IDF interfaces used by the firmware *)

Definition esp_err_t := Z.
Definition ESP_OK : esp_err_t := 0.

Definition gpio_num_t := Z.
Definition GPIO_NUM_2 : gpio_num_t := 2.

Inductive gpio_mode_t :=
| GPIO_MODE_DISABLE | GPIO_MODE_INPUT | GPIO_MODE_OUTPUT
| GPIO_MODE_OUTPUT_OD | GPIO_MODE_INPUT_OUTPUT_OD | GPIO_MODE_INPUT_OUTPUT.

Inductive gpio_pullup_t := GPIO_PULLUP_DISABLE | GPIO_PULLUP_ENABLE.
Inductive gpio_pulldown_t := GPIO_PULLDOWN_DISABLE | GPIO_PULLDOWN_ENABLE.

Inductive gpio_int_type_t :=
| GPIO_INTR_DISABLE | GPIO_INTR_POSEDGE | GPIO_INTR_NEGEDGE
| GPIO_INTR_ANYEDGE | GPIO_INTR_LOW_LEVEL | GPIO_INTR_HIGH_LEVEL.

Record gpio_config_t := {
  pin_bit_mask : Z;
  mode : gpio_mode_t;
  pull_up_en : gpio_pullup_t;
  pull_down_en : gpio_pulldown_t;
  intr_type : gpio_int_type_t
}.

Inductive esp_mqtt_protocol_ver_t :=
| MQTT_PROTOCOL_UNDEFINED | MQTT_PROTOCOL_V_3_1 | MQTT_PROTOCOL_V_3_1_1
| MQTT_PROTOCOL_V_5.

(** The fields of [esp_mqtt_client_config_t] that [mqtt5_app_start] sets; the
    designated initializer leaves every other field zero. *)
Record esp_mqtt_client_config_t := {
  broker_address_uri : string;
  session_protocol_ver : esp_mqtt_protocol_ver_t;
  network_disable_auto_reconnect : bool;
  session_last_will_topic : string;
  session_last_will_msg : string;
  session_last_will_msg_len : Z;
  session_last_will_qos : Z;
  session_last_will_retain : bool
}.

Definition esp_mqtt_client_handle_t := Z.

(** [esp_mqtt_event_id_t], with the values of [mqtt_client.h]. *)
Definition MQTT_EVENT_ANY : Z := -1.
Definition MQTT_EVENT_ERROR : Z := 0.
Definition MQTT_EVENT_CONNECTED : Z := 1.
Definition MQTT_EVENT_DISCONNECTED : Z := 2.
Definition MQTT_EVENT_SUBSCRIBED : Z := 3.
Definition MQTT_EVENT_UNSUBSCRIBED : Z := 4.
Definition MQTT_EVENT_PUBLISHED : Z := 5.
Definition MQTT_EVENT_DATA : Z := 6.
Definition MQTT_EVENT_BEFORE_CONNECT : Z := 7.
Definition MQTT_EVENT_DELETED : Z := 8.

Definition ESP_EVENT_ANY_ID : Z := -1.

(** [esp_mqtt_event_t].  [topic] and [data] hold the [topic_len] and
    [data_len] bytes the two pointers of the event refer to (they are not
    NUL-terminated), so both lengths are those of the strings. *)
Record esp_mqtt_event_t := {
  event_id : Z;
  client : esp_mqtt_client_handle_t;
  topic : string;
  data : string;
  msg_id : Z
}.

Definition topic_len (e : esp_mqtt_event_t) : nat := String.length (topic e).
Definition data_len (e : esp_mqtt_event_t) : nat := String.length (data e).

(** ** The world: calls into the collaborators and the GPIO output latch *)

Inductive call :=
| Nvs_flash_init
| Esp_netif_init
| Esp_event_loop_create_default
| Example_connect
| Gpio_config (cfg : gpio_config_t)
| Gpio_set_level (pin : gpio_num_t) (level : Z)
| Mqtt_client_init (cfg : esp_mqtt_client_config_t)
| Mqtt_client_register_event (c : esp_mqtt_client_handle_t) (id : Z)
| Mqtt_client_start (c : esp_mqtt_client_handle_t)
| Mqtt_publish (c : esp_mqtt_client_handle_t) (topic data : string)
    (len qos retain : Z)
| Mqtt_subscribe (c : esp_mqtt_client_handle_t) (topic : string) (qos : Z).

Record world := {
  gpio_out : gmap Z Z;
  calls : list call
}.

Definition emit (c : call) (w : world) : world :=
  {| gpio_out := gpio_out w; calls := calls w ++ [c] |}.

(** What the collaborators answer.  Message ids may depend on everything that
    was called before. *)
Record platform := {
  nvs_flash_init_result : esp_err_t;
  esp_netif_init_result : esp_err_t;
  esp_event_loop_create_default_result : esp_err_t;
  gpio_config_result : gpio_config_t -> esp_err_t;
  example_connect_result : esp_err_t;
  client_init_result : esp_mqtt_client_handle_t;
  publish_result : list call -> Z;
  subscribe_result : list call -> Z
}.

(** ** A state monad with abort ([ESP_ERROR_CHECK]) *)

Inductive outcome (A : Type) :=
| Ret (a : A) (w : world)
| Abort (code : esp_err_t).
Arguments Ret {A} a w.
Arguments Abort {A} code.

Definition M (A : Type) : Type := world -> outcome A.

Definition ret {A} (a : A) : M A := fun w => Ret a w.

Definition bind {A B} (m : M A) (k : A -> M B) : M B :=
  fun w =>
    match m w with
    | Ret a w' => k a w'
    | Abort code => Abort code
    end.

Notation "'do' x <- m ; k" := (bind m (fun x => k))
  (at level 10, x name, m at level 100, k at level 200).
Notation "'run' m ; k" := (bind m (fun _ => k))
  (at level 10, m at level 100, k at level 200).

(** [ESP_ERROR_CHECK(x)]: abort unless [x] is [ESP_OK]. *)
Definition ESP_ERROR_CHECK (m : M esp_err_t) : M unit :=
  do rc <- m; if rc =? ESP_OK then ret tt else (fun _ => Abort rc).

(** ** Configuration constants of [app_main.c] *)

Definition MQTT_BROKER_URI := "mqtt://test.mosquitto.org".
Definition TOPIC_STATUS := "/dorra/status".
Definition TOPIC_CONTROL := "/dorra/control".

Definition LED_GPIO_PIN : gpio_num_t := GPIO_NUM_2.
Definition LED_ON_LEVEL : Z := 1.

Definition MSG_CONNECTED := "ESP Connected".
Definition MSG_DISCONNECTED := "ESP Disconnected".
Definition MSG_OPEN_RESPONSE := "it's open".
Definition MSG_CLOSE_RESPONSE := "it's closed".
Definition CMD_OPEN := "open".
Definition CMD_CLOSE := "close".

(** C's logical negation [!x] on an [int]. *)
Definition c_not (x : Z) : Z := if x =? 0 then 1 else 0.

(** ** Collaborator calls *)

Section Firmware.

Variable plat : platform.

Definition nvs_flash_init : M esp_err_t :=
  fun w => Ret (nvs_flash_init_result plat) (emit Nvs_flash_init w).

Definition esp_netif_init : M esp_err_t :=
  fun w => Ret (esp_netif_init_result plat) (emit Esp_netif_init w).

Definition esp_event_loop_create_default : M esp_err_t :=
  fun w =>
    Ret (esp_event_loop_create_default_result plat)
        (emit Esp_event_loop_create_default w).

Definition example_connect : M esp_err_t :=
  fun w => Ret (example_connect_result plat) (emit Example_connect w).

Definition gpio_config (cfg : gpio_config_t) : M esp_err_t :=
  fun w => Ret (gpio_config_result plat cfg) (emit (Gpio_config cfg) w).

(** [gpio_set_level]: the output latch of [pin] takes [level].  The pin of
    this firmware, GPIO 2, is output-capable, for which the driver returns
    [ESP_OK]; the firmware ignores the result. *)
Definition gpio_set_level (pin : gpio_num_t) (level : Z) : M esp_err_t :=
  fun w =>
    Ret ESP_OK
        {| gpio_out := <[pin := level]> (gpio_out w);
           calls := calls w ++ [Gpio_set_level pin level] |}.

Definition esp_mqtt_client_init (cfg : esp_mqtt_client_config_t)
  : M esp_mqtt_client_handle_t :=
  fun w => Ret (client_init_result plat) (emit (Mqtt_client_init cfg) w).

Definition esp_mqtt_client_register_event
    (c : esp_mqtt_client_handle_t) (id : Z) : M unit :=
  fun w => Ret tt (emit (Mqtt_client_register_event c id) w).

Definition esp_mqtt_client_start (c : esp_mqtt_client_handle_t) : M unit :=
  fun w => Ret tt (emit (Mqtt_client_start c) w).

(** [esp_mqtt_client_publish(client, topic, data, len, qos, retain)]. *)
Definition esp_mqtt_client_publish (c : esp_mqtt_client_handle_t)
    (topic data : string) (len qos retain : Z) : M Z :=
  fun w =>
    Ret (publish_result plat (calls w))
        (emit (Mqtt_publish c topic data len qos retain) w).

(** [esp_mqtt_client_subscribe(client, topic, qos)]. *)
Definition esp_mqtt_client_subscribe (c : esp_mqtt_client_handle_t)
    (topic : string) (qos : Z) : M Z :=
  fun w =>
    Ret (subscribe_result plat (calls w)) (emit (Mqtt_subscribe c topic qos) w).

(** ** The functions of [app_main.c] *)

Definition led_set_state (state : bool) : M unit :=
  run gpio_set_level LED_GPIO_PIN
        (if state then LED_ON_LEVEL else c_not LED_ON_LEVEL);
  ret tt.

Definition led_init : M unit :=
  let led_config :=
    {| pin_bit_mask := Z.shiftl 1 LED_GPIO_PIN;
       mode := GPIO_MODE_OUTPUT;
       pull_up_en := GPIO_PULLUP_DISABLE;
       pull_down_en := GPIO_PULLDOWN_DISABLE;
       intr_type := GPIO_INTR_DISABLE |} in
  run ESP_ERROR_CHECK (gpio_config led_config);
  led_set_state false.

Definition handle_mqtt_connected (c : esp_mqtt_client_handle_t) : M unit :=
  do msg_id <- esp_mqtt_client_publish c TOPIC_STATUS MSG_CONNECTED 0 1 0;
  do msg_id <- esp_mqtt_client_subscribe c TOPIC_CONTROL 1;
  ret tt.

Definition process_control_message (data : string) (data_len : nat)
    (c : esp_mqtt_client_handle_t) : M unit :=
  if strncmp data CMD_OPEN data_len =? 0 then
    run led_set_state true;
    do msg_id <- esp_mqtt_client_publish c TOPIC_STATUS MSG_OPEN_RESPONSE 0 1 0;
    ret tt
  else if strncmp data CMD_CLOSE data_len =? 0 then
    run led_set_state false;
    do msg_id <- esp_mqtt_client_publish c TOPIC_STATUS MSG_CLOSE_RESPONSE 0 1 0;
    ret tt
  else
    ret tt.

Definition handle_mqtt_data (event : esp_mqtt_event_t)
    (c : esp_mqtt_client_handle_t) : M unit :=
  if strncmp (topic event) TOPIC_CONTROL (topic_len event) =? 0 then
    process_control_message (data event) (data_len event) c
  else
    ret tt.

(** The [switch] of the event handler; the branches that only log do
    nothing here. *)
Definition mqtt5_event_handler (event_id : Z) (event : esp_mqtt_event_t)
  : M unit :=
  let c := client event in
  if event_id =? MQTT_EVENT_CONNECTED then handle_mqtt_connected c
  else if event_id =? MQTT_EVENT_DISCONNECTED then ret tt
  else if event_id =? MQTT_EVENT_PUBLISHED then ret tt
  else if event_id =? MQTT_EVENT_SUBSCRIBED then ret tt
  else if event_id =? MQTT_EVENT_DATA then handle_mqtt_data event c
  else if event_id =? MQTT_EVENT_ERROR then ret tt
  else ret tt.

Definition mqtt5_cfg : esp_mqtt_client_config_t :=
  {| broker_address_uri := MQTT_BROKER_URI;
     session_protocol_ver := MQTT_PROTOCOL_V_5;
     network_disable_auto_reconnect := false;
     session_last_will_topic := TOPIC_STATUS;
     session_last_will_msg := MSG_DISCONNECTED;
     session_last_will_msg_len := Z.of_nat (strlen MSG_DISCONNECTED);
     session_last_will_qos := 1;
     session_last_will_retain := true |}.

Definition mqtt5_app_start : M unit :=
  do c <- esp_mqtt_client_init mqtt5_cfg;
  run esp_mqtt_client_register_event c ESP_EVENT_ANY_ID;
  esp_mqtt_client_start c.

Definition app_main : M unit :=
  run ESP_ERROR_CHECK nvs_flash_init;
  run ESP_ERROR_CHECK esp_netif_init;
  run ESP_ERROR_CHECK esp_event_loop_create_default;
  run led_init;
  run ESP_ERROR_CHECK example_connect;
  mqtt5_app_start.

End Firmware.

(** ** Observations on a world *)

(** The logical output state: whether the LED pin is at its active level.
    Undefined until the pin has been written. *)
Definition output_state (w : world) : option bool :=
  match gpio_out w !! LED_GPIO_PIN with
  | Some level => Some (level =? LED_ON_LEVEL)
  | None => None
  end.

Definition is_publish (c : call) : bool :=
  match c with Mqtt_publish _ _ _ _ _ _ => true | _ => false end.

Definition is_subscribe (c : call) : bool :=
  match c with Mqtt_subscribe _ _ _ => true | _ => false end.

Definition is_gpio_write (c : call) : bool :=
  match c with Gpio_set_level _ _ => true | _ => false end.

(** The payload the client sends for a publish call: with [len = 0] it takes
    the length from the NUL-terminated [data], otherwise the first [len]
    bytes. *)
Definition publish_payload (data : string) (len : Z) : string :=
  if len =? 0 then data else substring 0 (Z.to_nat len) data.

(** Topic and payload of every publish call, in order. *)
Fixpoint published (cs : list call) : list (string * string) :=
  match cs with
  | [] => []
  | Mqtt_publish _ t d len _ _ :: cs' => (t, publish_payload d len) :: published cs'
  | _ :: cs' => published cs'
  end.

(** An action [m], started in [w], returns and leaves exactly the calls
    [cs] behind, in that order. *)
Definition performs {A} (m : M A) (w : world) (cs : list call) : Prop :=
  exists a w', m w = Ret a w' /\ calls w' = (calls w ++ cs)%list.

(** Sample collaborators and an initial world, for concrete runs. *)
Definition quiet_platform : platform :=
  {| nvs_flash_init_result := ESP_OK;
     esp_netif_init_result := ESP_OK;
     esp_event_loop_create_default_result := ESP_OK;
     gpio_config_result := fun _ => ESP_OK;
     example_connect_result := ESP_OK;
     client_init_result := 7;
     publish_result := fun cs => Z.of_nat (List.length cs);
     subscribe_result := fun cs => Z.of_nat (List.length cs) |}.

Definition power_on : world := {| gpio_out := ∅; calls := [] |}.

Definition data_event (t d : string) : esp_mqtt_event_t :=
  {| event_id := MQTT_EVENT_DATA; client := 7; topic := t; data := d;
     msg_id := 0 |}.

(** The worlds the three effectful paths of the handler lead to. *)
Definition opened (c : esp_mqtt_client_handle_t) (w : world) : world :=
  {| gpio_out := <[LED_GPIO_PIN := 1]> (gpio_out w);
     calls := calls w ++
       [Gpio_set_level LED_GPIO_PIN 1;
        Mqtt_publish c TOPIC_STATUS MSG_OPEN_RESPONSE 0 1 0] |}.

Definition closed (c : esp_mqtt_client_handle_t) (w : world) : world :=
  {| gpio_out := <[LED_GPIO_PIN := 0]> (gpio_out w);
     calls := calls w ++
       [Gpio_set_level LED_GPIO_PIN 0;
        Mqtt_publish c TOPIC_STATUS MSG_CLOSE_RESPONSE 0 1 0] |}.

Definition connected (c : esp_mqtt_client_handle_t) (w : world) : world :=
  {| gpio_out := gpio_out w;
     calls := calls w ++
       [Mqtt_publish c TOPIC_STATUS MSG_CONNECTED 0 1 0;
        Mqtt_subscribe c TOPIC_CONTROL 1] |}.

(** The calls [app_main] makes when no check fails. *)
Definition boot_calls (plat : platform) : list call :=
  [Nvs_flash_init; Esp_netif_init; Esp_event_loop_create_default;
   Gpio_config
     {| pin_bit_mask := 4; mode := GPIO_MODE_OUTPUT;
        pull_up_en := GPIO_PULLUP_DISABLE;
        pull_down_en := GPIO_PULLDOWN_DISABLE;
        intr_type := GPIO_INTR_DISABLE |};
   Gpio_set_level LED_GPIO_PIN 0;
   Example_connect;
   Mqtt_client_init mqtt5_cfg;
   Mqtt_client_register_event (client_init_result plat) ESP_EVENT_ANY_ID;
   Mqtt_client_start (client_init_result plat)].

(** The world [app_main] leaves behind when no check fails. *)
Definition booted (plat : platform) (w : world) : world :=
  {| gpio_out := <[LED_GPIO_PIN := 0]> (gpio_out w);
     calls := calls w ++ boot_calls plat |}.

Definition count_publish (cs : list call) : nat :=
  List.length (List.filter is_publish cs).

Definition count_subscribe (cs : list call) : nat :=
  List.length (List.filter is_subscribe cs).

Definition count_gpio_write (cs : list call) : nat :=
  List.length (List.filter is_gpio_write cs).

(** A publish call carries QoS 1 and a set retain flag. *)
Definition qos1_retained (c : call) : bool :=
  match c with
  | Mqtt_publish _ _ _ _ qos retain => (qos =? 1) && negb (retain =? 0)
  | _ => true
  end.

(** A publish call goes to the status topic with QoS 1, and an
    acknowledgment of a command is not retained. *)
Definition qos1_ack_unretained (c : call) : Prop :=
  match c with
  | Mqtt_publish _ t d _ qos retain =>
      t = TOPIC_STATUS /\ qos = 1 /\
      (d = MSG_OPEN_RESPONSE \/ d = MSG_CLOSE_RESPONSE -> retain = 0)
  | _ => True
  end.

(** ** Event sequences and classifiers *)

(** The event loop hands the events to the registered handler one at a time,
    each handled to completion before the next. *)
Fixpoint dispatch (plat : platform) (evs : list (Z * esp_mqtt_event_t))
  : M unit :=
  match evs with
  | [] => ret tt
  | (id, ev) :: rest =>
      run mqtt5_event_handler plat id ev;
      dispatch plat rest
  end.

Definition count_connected (evs : list (Z * esp_mqtt_event_t)) : nat :=
  List.length (List.filter (fun e => fst e =? MQTT_EVENT_CONNECTED) evs).

(** The buffers a comparison bounded by the buffer's own length takes for
    the literal [lit]: the prefixes of [lit], and the buffers that start
    with [lit] followed by a NUL byte. *)
Definition accepts (lit s : string) : bool :=
  String.prefix s lit || String.prefix (String.append lit (String NUL "")) s.

(** What the handler may call: the LED pin with level 0 or 1, a publish to
    the status topic, a subscribe to the control topic. *)
Definition handler_call (c : call) : Prop :=
  match c with
  | Gpio_set_level pin level => pin = LED_GPIO_PIN /\ (level = 0 \/ level = 1)
  | Mqtt_publish _ t _ _ _ _ => t = TOPIC_STATUS
  | Mqtt_subscribe _ t _ => t = TOPIC_CONTROL
  | _ => False
  end.

(** The first result that is not [ESP_OK]. *)
Fixpoint first_failure (results : list esp_err_t) : option esp_err_t :=
  match results with
  | [] => None
  | rc :: rest => if rc =? ESP_OK then first_failure rest else Some rc
  end.

(** The results of the calls [app_main] wraps in [ESP_ERROR_CHECK], in
    program order. *)
Definition checked_results (plat : platform) : list esp_err_t :=
  [nvs_flash_init_result plat;
   esp_netif_init_result plat;
   esp_event_loop_create_default_result plat;
   gpio_config_result plat
     {| pin_bit_mask := 4; mode := GPIO_MODE_OUTPUT;
        pull_up_en := GPIO_PULLUP_DISABLE;
        pull_down_en := GPIO_PULLDOWN_DISABLE;
        intr_type := GPIO_INTR_DISABLE |};
   example_connect_result plat].

(** * Properties *)

(** ** [strncmp] *)

Lemma uchar_inj c1 c2 : uchar c1 = uchar c2 -> c1 = c2.
Proof.
  unfold uchar. intros H. apply Nat2Z.inj in H.
  rewrite <- (ascii_nat_embedding c1), <- (ascii_nat_embedding c2).
  now rewrite H.
Qed.

Lemma uchar_diff c1 c2 : c1 <> c2 -> uchar c1 - uchar c2 <> 0.
Proof. intros Hne H. apply Hne, uchar_inj. lia. Qed.

(** Comparing a string with itself gives 0, whatever the bound. *)
Lemma strncmp_refl s n : strncmp s s n = 0.
Proof.
  revert s. induction n as [|n IH]; intros s; simpl; [reflexivity|].
  rewrite Ascii.eqb_refl. simpl.
  destruct (Ascii.eqb (cur s) NUL); [reflexivity | apply IH].
Qed.

(** With the bound [data_len], [strncmp] never looks behind the
    [data_len] bytes of the buffer: whatever follows them in memory does
    not matter. *)
Lemma strncmp_buffer_bound s rest lit :
  strncmp (s ++ rest) lit (String.length s) = strncmp s lit (String.length s).
Proof.
  revert lit. induction s as [|c s IH]; intros lit; simpl; [reflexivity|].
  destruct (negb (Ascii.eqb c (cur lit))); [reflexivity|].
  destruct (Ascii.eqb c NUL); [reflexivity | apply IH].
Qed.

(** On a buffer without NUL bytes, [strncmp] bounded by the buffer's length
    answers 0 exactly for the prefixes of the literal. *)
Lemma strncmp_zero_iff_prefix s lit :
  nul_free s = true ->
  strncmp s lit (String.length s) = 0 <-> String.prefix s lit = true.
Proof.
  revert lit. induction s as [|c s IH]; intros lit Hnf; simpl.
  - destruct lit; split; reflexivity.
  - simpl in Hnf. apply andb_prop in Hnf as [Hc Hs].
    apply negb_true_iff in Hc.
    destruct lit as [|c' lit]; simpl.
    + rewrite Hc. simpl. split; [|discriminate].
      intros H. exfalso. revert H. apply uchar_diff.
      intros ->. now rewrite Ascii.eqb_refl in Hc.
    + destruct (ascii_dec c c') as [->|Hne].
      * rewrite Ascii.eqb_refl. simpl. rewrite Hc. now apply IH.
      * apply Ascii.eqb_neq in Hne as Hb. rewrite Hb. simpl.
        split; [|discriminate].
        intros H. exfalso. revert H. now apply uchar_diff.
Qed.

Example strncmp_upper_case : strncmp "OPEN" CMD_OPEN 4 = -32.
Proof. reflexivity. Qed.

Example strncmp_trailing_space : strncmp "open " CMD_OPEN 5 = 32.
Proof. reflexivity. Qed.

Example strncmp_empty : strncmp "" CMD_OPEN 0 = 0.
Proof. reflexivity. Qed.

(** ** The three outcomes of [process_control_message] *)

Section Handler.

Variable plat : platform.

Lemma process_control_message_open d n c w :
  strncmp d CMD_OPEN n = 0 ->
  process_control_message plat d n c w = Ret tt (opened c w).
Proof.
  intros H. unfold process_control_message. rewrite H. simpl.
  unfold bind, led_set_state, bind, gpio_set_level, esp_mqtt_client_publish,
    emit, ret, opened. simpl.
  now rewrite <- app_assoc.
Qed.

Lemma process_control_message_close d n c w :
  strncmp d CMD_OPEN n <> 0 ->
  strncmp d CMD_CLOSE n = 0 ->
  process_control_message plat d n c w = Ret tt (closed c w).
Proof.
  intros Ho Hc. unfold process_control_message.
  apply Z.eqb_neq in Ho. rewrite Ho, Hc. simpl.
  unfold bind, led_set_state, bind, gpio_set_level, esp_mqtt_client_publish,
    emit, ret, closed. simpl.
  now rewrite <- app_assoc.
Qed.

Lemma process_control_message_unknown d n c w :
  strncmp d CMD_OPEN n <> 0 ->
  strncmp d CMD_CLOSE n <> 0 ->
  process_control_message plat d n c w = Ret tt w.
Proof.
  intros Ho Hc. unfold process_control_message.
  apply Z.eqb_neq in Ho, Hc. now rewrite Ho, Hc.
Qed.

Lemma process_control_message_cases d n c w :
  process_control_message plat d n c w = Ret tt w \/
  process_control_message plat d n c w = Ret tt (opened c w) \/
  process_control_message plat d n c w = Ret tt (closed c w).
Proof.
  destruct (Z.eq_dec (strncmp d CMD_OPEN n) 0) as [Ho|Ho].
  - right; left. now apply process_control_message_open.
  - destruct (Z.eq_dec (strncmp d CMD_CLOSE n) 0) as [Hc|Hc].
    + right; right. now apply process_control_message_close.
    + left. now apply process_control_message_unknown.
Qed.

Lemma handle_mqtt_connected_run c w :
  handle_mqtt_connected plat c w = Ret tt (connected c w).
Proof.
  unfold handle_mqtt_connected, bind, esp_mqtt_client_publish,
    esp_mqtt_client_subscribe, emit, ret, connected. simpl.
  now rewrite <- app_assoc.
Qed.

Lemma handle_mqtt_data_on_control ev c w :
  topic ev = TOPIC_CONTROL ->
  handle_mqtt_data plat ev c w =
  process_control_message plat (data ev) (data_len ev) c w.
Proof.
  intros Ht. unfold handle_mqtt_data, topic_len. rewrite Ht.
  now rewrite strncmp_refl.
Qed.

Lemma handle_mqtt_data_cases ev c w :
  handle_mqtt_data plat ev c w = Ret tt w \/
  handle_mqtt_data plat ev c w = Ret tt (opened c w) \/
  handle_mqtt_data plat ev c w = Ret tt (closed c w).
Proof.
  unfold handle_mqtt_data.
  destruct (strncmp (topic ev) TOPIC_CONTROL (topic_len ev) =? 0).
  - apply process_control_message_cases.
  - now left.
Qed.

(** Every event leaves the world as it is or takes one of the three
    effectful paths. *)
Lemma mqtt5_event_handler_cases id ev w :
  mqtt5_event_handler plat id ev w = Ret tt w \/
  mqtt5_event_handler plat id ev w = Ret tt (opened (client ev) w) \/
  mqtt5_event_handler plat id ev w = Ret tt (closed (client ev) w) \/
  mqtt5_event_handler plat id ev w = Ret tt (connected (client ev) w).
Proof.
  unfold mqtt5_event_handler.
  destruct (id =? MQTT_EVENT_CONNECTED).
  { right; right; right. apply handle_mqtt_connected_run. }
  destruct (id =? MQTT_EVENT_DISCONNECTED); [now left|].
  destruct (id =? MQTT_EVENT_PUBLISHED); [now left|].
  destruct (id =? MQTT_EVENT_SUBSCRIBED); [now left|].
  destruct (id =? MQTT_EVENT_DATA).
  { destruct (handle_mqtt_data_cases ev (client ev) w) as [H|[H|H]];
      rewrite H; tauto. }
  destruct (id =? MQTT_EVENT_ERROR); now left.
Qed.

Lemma mqtt5_event_handler_data ev :
  mqtt5_event_handler plat MQTT_EVENT_DATA ev =
  handle_mqtt_data plat ev (client ev).
Proof. reflexivity. Qed.

End Handler.

Lemma output_state_opened c w : output_state (opened c w) = Some true.
Proof. unfold output_state, opened. simpl. now rewrite lookup_insert_eq. Qed.

Lemma output_state_closed c w : output_state (closed c w) = Some false.
Proof. unfold output_state, closed. simpl. now rewrite lookup_insert_eq. Qed.

Lemma published_app cs1 cs2 :
  published (cs1 ++ cs2) = (published cs1 ++ published cs2)%list.
Proof.
  induction cs1 as [|c cs1 IH]; simpl; [reflexivity|].
  destruct c; simpl; now rewrite ?IH.
Qed.

(** ** Commands on the control topic *)

(** C4: a data event on the control topic whose payload is exactly "open"
    sets the output state to true and makes exactly one publish call, with
    payload "it's open". *)
Theorem open_command_sets_output_and_acks plat ev c w :
  topic ev = TOPIC_CONTROL ->
  data ev = "open" ->
  exists w' cs,
    handle_mqtt_data plat ev c w = Ret tt w' /\
    calls w' = (calls w ++ cs)%list /\
    output_state w' = Some true /\
    count_publish cs = 1%nat /\
    published cs = [(TOPIC_STATUS, "it's open")].
Proof.
  intros Ht Hd. eexists (opened c w), _.
  split; [|split; [reflexivity|]].
  - rewrite handle_mqtt_data_on_control by assumption.
    apply process_control_message_open.
    unfold data_len. now rewrite Hd.
  - split; [apply output_state_opened | split; reflexivity].
Qed.

Lemma open_command_sets_output_and_acks_witness :
  exists w' cs,
    handle_mqtt_data quiet_platform (data_event "/dorra/control" "open") 7
      power_on = Ret tt w' /\
    calls w' = (calls power_on ++ cs)%list /\
    output_state w' = Some true /\
    count_publish cs = 1%nat /\
    published cs = [(TOPIC_STATUS, "it's open")].
Proof.
  apply (open_command_sets_output_and_acks quiet_platform
           (data_event "/dorra/control" "open") 7 power_on);
    reflexivity.
Defined.

(** C5: a data event on the control topic whose payload is exactly "close"
    sets the output state to false and makes exactly one publish call, with
    payload "it's closed". *)
Theorem close_command_clears_output_and_acks plat ev c w :
  topic ev = TOPIC_CONTROL ->
  data ev = "close" ->
  exists w' cs,
    handle_mqtt_data plat ev c w = Ret tt w' /\
    calls w' = (calls w ++ cs)%list /\
    output_state w' = Some false /\
    count_publish cs = 1%nat /\
    published cs = [(TOPIC_STATUS, "it's closed")].
Proof.
  intros Ht Hd. eexists (closed c w), _.
  split; [|split; [reflexivity|]].
  - rewrite handle_mqtt_data_on_control by assumption.
    unfold data_len. rewrite Hd.
    apply process_control_message_close; [discriminate | reflexivity].
  - split; [apply output_state_closed | split; reflexivity].
Qed.

Lemma close_command_clears_output_and_acks_witness :
  exists w' cs,
    handle_mqtt_data quiet_platform (data_event "/dorra/control" "close") 7
      (opened 7 power_on) = Ret tt w' /\
    calls w' = (calls (opened 7 power_on) ++ cs)%list /\
    output_state w' = Some false /\
    count_publish cs = 1%nat /\
    published cs = [(TOPIC_STATUS, "it's closed")].
Proof.
  apply (close_command_clears_output_and_acks quiet_platform
           (data_event "/dorra/control" "close") 7 (opened 7 power_on));
    reflexivity.
Defined.

(** C7: two "open" commands in a row on the control topic leave the output
    state true after each call and publish the same acknowledgment (same
    topic, same payload) both times, whatever world the first call starts
    in. *)
Theorem open_twice_is_idempotent plat ev c w :
  topic ev = TOPIC_CONTROL ->
  data ev = "open" ->
  exists w1 w2 ack,
    handle_mqtt_data plat ev c w = Ret tt w1 /\
    handle_mqtt_data plat ev c w1 = Ret tt w2 /\
    output_state w1 = Some true /\
    output_state w2 = Some true /\
    published (calls w1) = (published (calls w) ++ [ack])%list /\
    published (calls w2) = (published (calls w1) ++ [ack])%list /\
    ack = (TOPIC_STATUS, "it's open").
Proof.
  intros Ht Hd.
  assert (Hrun : forall w0,
             handle_mqtt_data plat ev c w0 = Ret tt (opened c w0)).
  { intros w0. rewrite handle_mqtt_data_on_control by assumption.
    apply process_control_message_open. unfold data_len. now rewrite Hd. }
  exists (opened c w), (opened c (opened c w)), (TOPIC_STATUS, "it's open").
  repeat split; try apply Hrun; try apply output_state_opened.
  - unfold opened at 1. simpl calls. now rewrite published_app.
  - unfold opened at 1. simpl calls. now rewrite published_app.
Qed.

Lemma open_twice_is_idempotent_witness :
  exists w1 w2 ack,
    handle_mqtt_data quiet_platform (data_event "/dorra/control" "open") 7
      power_on = Ret tt w1 /\
    handle_mqtt_data quiet_platform (data_event "/dorra/control" "open") 7
      w1 = Ret tt w2 /\
    output_state w1 = Some true /\
    output_state w2 = Some true /\
    published (calls w1) = (published (calls power_on) ++ [ack])%list /\
    published (calls w2) = (published (calls w1) ++ [ack])%list /\
    ack = (TOPIC_STATUS, "it's open").
Proof.
  apply (open_twice_is_idempotent quiet_platform
           (data_event "/dorra/control" "open") 7 power_on);
    reflexivity.
Defined.

(** C10: one call of [process_control_message] takes at most one of its two
    branches: it returns after at most one GPIO write and at most one
    publish, never publishes both acknowledgments, and takes the open branch
    whenever the open comparison succeeds, whatever the close comparison
    would give. *)
Theorem process_control_message_one_branch plat d n c w :
  exists w' cs,
    process_control_message plat d n c w = Ret tt w' /\
    calls w' = (calls w ++ cs)%list /\
    (count_gpio_write cs <= 1)%nat /\
    (count_publish cs <= 1)%nat /\
    ~ (In (TOPIC_STATUS, "it's open") (published cs) /\
       In (TOPIC_STATUS, "it's closed") (published cs)) /\
    (strncmp d CMD_OPEN n = 0 -> w' = opened c w).
Proof.
  destruct (Z.eq_dec (strncmp d CMD_OPEN n) 0) as [Ho|Ho].
  - exists (opened c w), [Gpio_set_level LED_GPIO_PIN 1;
      Mqtt_publish c TOPIC_STATUS MSG_OPEN_RESPONSE 0 1 0].
    split; [now apply process_control_message_open|].
    repeat split; try (cbn; lia).
    cbn. intros [_ [H|[]]]. discriminate H.
  - destruct (Z.eq_dec (strncmp d CMD_CLOSE n) 0) as [Hc|Hc].
    + exists (closed c w), [Gpio_set_level LED_GPIO_PIN 0;
        Mqtt_publish c TOPIC_STATUS MSG_CLOSE_RESPONSE 0 1 0].
      split; [now apply process_control_message_close|].
      repeat split; try (cbn; lia); try contradiction.
      cbn. intros [[H|[]] _]. discriminate H.
    + exists w, [].
      split; [now apply process_control_message_unknown|].
      repeat split; try (cbn; lia); try contradiction.
      all: try (now rewrite app_nil_r); cbn; tauto.
Qed.

(** ** Connection events *)

(** C6: a connected event makes exactly one publish, of "ESP Connected" to
    the status topic, and exactly one subscribe request, to the control
    topic, the publish first; the output is not written. *)
Theorem connected_publishes_then_subscribes plat ev w :
  exists w' p s,
    mqtt5_event_handler plat MQTT_EVENT_CONNECTED ev w = Ret tt w' /\
    calls w' = (calls w ++ [p; s])%list /\
    p = Mqtt_publish (client ev) TOPIC_STATUS "ESP Connected" 0 1 0 /\
    s = Mqtt_subscribe (client ev) "/dorra/control" 1 /\
    published [p; s] = [("/dorra/status", "ESP Connected")] /\
    count_publish [p; s] = 1%nat /\
    count_subscribe [p; s] = 1%nat /\
    gpio_out w' = gpio_out w.
Proof.
  exists (connected (client ev) w). do 2 eexists.
  split; [apply handle_mqtt_connected_run|].
  split; [reflexivity|]. repeat split.
Qed.

(** C9: a disconnected event changes nothing: the handler returns in the
    world it started in, so it writes no GPIO and publishes nothing.  The
    "ESP Disconnected" message is the last will that [mqtt5_app_start] hands
    to the client at initialization: status topic, QoS 1, retained. *)
Theorem disconnected_is_silent_last_will_configured plat ev w :
  mqtt5_event_handler plat MQTT_EVENT_DISCONNECTED ev w = Ret tt w /\
  performs (mqtt5_app_start plat) w
    [Mqtt_client_init mqtt5_cfg;
     Mqtt_client_register_event (client_init_result plat) ESP_EVENT_ANY_ID;
     Mqtt_client_start (client_init_result plat)] /\
  session_last_will_topic mqtt5_cfg = "/dorra/status" /\
  session_last_will_msg mqtt5_cfg = "ESP Disconnected" /\
  session_last_will_msg_len mqtt5_cfg = 16 /\
  session_last_will_qos mqtt5_cfg = 1 /\
  session_last_will_retain mqtt5_cfg = true.
Proof.
  split; [reflexivity|]. split; [|repeat split].
  unfold performs, mqtt5_app_start, bind, esp_mqtt_client_init,
    esp_mqtt_client_register_event, esp_mqtt_client_start, emit.
  simpl. do 2 eexists. split; [reflexivity|].
  simpl. now rewrite <- !app_assoc.
Qed.

(** ** Initialization *)

(** [app_main] returns only when every check passed, and then in the
    [booted] world. *)
Lemma app_main_run plat w a w' :
  app_main plat w = Ret a w' ->
  w' = booted plat w.
Proof.
  unfold app_main, led_init, led_set_state, mqtt5_app_start, ESP_ERROR_CHECK,
    bind, nvs_flash_init, esp_netif_init, esp_event_loop_create_default,
    gpio_config, gpio_set_level, example_connect, esp_mqtt_client_init,
    esp_mqtt_client_register_event, esp_mqtt_client_start, emit, ret.
  simpl.
  destruct (nvs_flash_init_result plat =? ESP_OK); [simpl|discriminate].
  destruct (esp_netif_init_result plat =? ESP_OK); [simpl|discriminate].
  destruct (esp_event_loop_create_default_result plat =? ESP_OK);
    [simpl|discriminate].
  destruct (gpio_config_result plat _ =? ESP_OK); [simpl|discriminate].
  destruct (example_connect_result plat =? ESP_OK); [simpl|discriminate].
  intros [= _ <-]. unfold booted, boot_calls. simpl.
  now rewrite <- !app_assoc.
Qed.

(** When every collaborator answers [ESP_OK], [app_main] does return. *)
Lemma app_main_completes plat w :
  nvs_flash_init_result plat = ESP_OK ->
  esp_netif_init_result plat = ESP_OK ->
  esp_event_loop_create_default_result plat = ESP_OK ->
  (forall cfg, gpio_config_result plat cfg = ESP_OK) ->
  example_connect_result plat = ESP_OK ->
  app_main plat w = Ret tt (booted plat w).
Proof.
  intros H1 H2 H3 H4 H5.
  unfold app_main, led_init, led_set_state, mqtt5_app_start, ESP_ERROR_CHECK,
    bind, nvs_flash_init, esp_netif_init, esp_event_loop_create_default,
    gpio_config, gpio_set_level, example_connect, esp_mqtt_client_init,
    esp_mqtt_client_register_event, esp_mqtt_client_start, emit, ret.
  simpl. rewrite H1, H2, H3, H4, H5. simpl.
  unfold booted, boot_calls. simpl. now rewrite <- !app_assoc.
Qed.

(** C8: when initialization completes the output state is false: [app_main]
    writes the off level to the LED pin, and it does so before it creates
    and starts the MQTT client, hence before any event reaches the
    handler. *)
Theorem output_is_off_after_initialization plat w a w' :
  app_main plat w = Ret a w' ->
  output_state w' = Some false /\
  exists before after,
    calls w' =
      (calls w ++ before ++ Gpio_set_level LED_GPIO_PIN 0 :: after)%list /\
    count_gpio_write after = 0%nat /\
    ~ In (Mqtt_client_start (client_init_result plat)) before /\
    In (Mqtt_client_start (client_init_result plat)) after.
Proof.
  intros H. apply app_main_run in H. subst w'. split.
  - unfold output_state, booted. simpl. now rewrite lookup_insert_eq.
  - eexists [_; _; _; _], [_; _; _; _].
    split; [reflexivity|]. split; [reflexivity|]. split.
    + cbn. intros [H|[H|[H|[H|[]]]]]; discriminate H.
    + cbn. tauto.
Qed.

Lemma output_is_off_after_initialization_witness :
  output_state (booted quiet_platform power_on) = Some false /\
  exists before after,
    calls (booted quiet_platform power_on) =
      (calls power_on ++ before ++ Gpio_set_level LED_GPIO_PIN 0 :: after)%list /\
    count_gpio_write after = 0%nat /\
    ~ In (Mqtt_client_start (client_init_result quiet_platform)) before /\
    In (Mqtt_client_start (client_init_result quiet_platform)) after.
Proof.
  apply (output_is_off_after_initialization quiet_platform power_on tt
           (booted quiet_platform power_on)).
  reflexivity.
Defined.

(** ** Payloads and topics that are only prefixes *)

(** A payload without NUL bytes that is a prefix of neither command is
    ignored: no GPIO write, no publish. *)
Lemma unrelated_payload_ignored plat ev c w :
  topic ev = TOPIC_CONTROL ->
  nul_free (data ev) = true ->
  String.prefix (data ev) CMD_OPEN = false ->
  String.prefix (data ev) CMD_CLOSE = false ->
  handle_mqtt_data plat ev c w = Ret tt w.
Proof.
  intros Ht Hnf Ho Hc. rewrite handle_mqtt_data_on_control by assumption.
  unfold data_len.
  apply process_control_message_unknown;
    rewrite strncmp_zero_iff_prefix by assumption; congruence.
Qed.

Example upper_case_payload_ignored plat c w :
  handle_mqtt_data plat (data_event TOPIC_CONTROL "OPEN") c w = Ret tt w.
Proof. now apply unrelated_payload_ignored. Qed.

Example trailing_space_payload_ignored plat c w :
  handle_mqtt_data plat (data_event TOPIC_CONTROL "open ") c w = Ret tt w.
Proof. now apply unrelated_payload_ignored. Qed.

(** A payload that is a prefix of "open" is taken for the command. *)
Lemma prefix_payload_opens plat ev c w :
  topic ev = TOPIC_CONTROL ->
  nul_free (data ev) = true ->
  String.prefix (data ev) CMD_OPEN = true ->
  handle_mqtt_data plat ev c w = Ret tt (opened c w).
Proof.
  intros Ht Hnf Ho. rewrite handle_mqtt_data_on_control by assumption.
  apply process_control_message_open. unfold data_len.
  now apply strncmp_zero_iff_prefix.
Qed.

(** C1: the claim does not hold of the code at the empty payload, one of its
    own examples.  [strncmp] is bounded by [data_len], which is 0 here, so it
    answers 0 without comparing anything: the open branch runs, the output
    goes to true and "it's open" is published. *)
Theorem empty_payload_opens_door plat id cl mid c w :
  let ev := {| event_id := id; client := cl; topic := "/dorra/control";
               data := ""; msg_id := mid |} in
  data ev <> "open" /\ data ev <> "close" /\
  handle_mqtt_data plat ev c w = Ret tt (opened c w) /\
  output_state (opened c w) = Some true /\
  calls (opened c w) =
    (calls w ++ [Gpio_set_level LED_GPIO_PIN 1;
                 Mqtt_publish c "/dorra/status" "it's open" 0 1 0])%list.
Proof.
  cbn zeta. split; [discriminate|]. split; [discriminate|].
  split; [|split; [apply output_state_opened | reflexivity]].
  rewrite handle_mqtt_data_on_control by reflexivity.
  now apply process_control_message_open.
Qed.

(** A topic that is a prefix of the control topic passes the topic test. *)
Lemma prefix_topic_passes plat ev c w :
  nul_free (topic ev) = true ->
  String.prefix (topic ev) TOPIC_CONTROL = true ->
  handle_mqtt_data plat ev c w =
  process_control_message plat (data ev) (data_len ev) c w.
Proof.
  intros Hnf Hp. unfold handle_mqtt_data, topic_len.
  apply strncmp_zero_iff_prefix in Hp; [|assumption].
  now rewrite Hp.
Qed.

(** C2: the claim does not hold of the code for a topic that is a proper
    prefix of the control topic.  [strncmp] is bounded by [topic_len], so
    "/dorra" compares equal to "/dorra/control" and the payload is processed
    as a command; so does the empty topic ([topic_len = 0]) that the client
    reports for the follow-up events of a message longer than its buffer. *)
Theorem prefix_topic_is_processed plat id cl mid c w :
  let ev := {| event_id := id; client := cl; topic := "/dorra";
               data := "open"; msg_id := mid |} in
  let ev0 := {| event_id := id; client := cl; topic := "";
                data := "open"; msg_id := mid |} in
  topic ev <> TOPIC_CONTROL /\
  topic ev0 <> TOPIC_CONTROL /\
  handle_mqtt_data plat ev c w = Ret tt (opened c w) /\
  handle_mqtt_data plat ev0 c w = Ret tt (opened c w) /\
  output_state (opened c w) = Some true /\
  calls (opened c w) =
    (calls w ++ [Gpio_set_level LED_GPIO_PIN 1;
                 Mqtt_publish c "/dorra/status" "it's open" 0 1 0])%list.
Proof.
  cbn zeta. split; [discriminate|]. split; [discriminate|].
  split; [|split; [|split; [apply output_state_opened | reflexivity]]].
  - rewrite prefix_topic_passes by reflexivity.
    now apply process_control_message_open.
  - rewrite prefix_topic_passes by reflexivity.
    now apply process_control_message_open.
Qed.

(** A topic that is not a prefix of the control topic is ignored, whatever
    the payload. *)
Lemma unrelated_topic_ignored plat ev c w :
  nul_free (topic ev) = true ->
  String.prefix (topic ev) TOPIC_CONTROL = false ->
  handle_mqtt_data plat ev c w = Ret tt w.
Proof.
  intros Hnf Hp. unfold handle_mqtt_data, topic_len.
  destruct (Z.eqb_spec (strncmp (topic ev) TOPIC_CONTROL
                          (String.length (topic ev))) 0) as [H|H];
    [|reflexivity].
  apply strncmp_zero_iff_prefix in H; [congruence | assumption].
Qed.

(** ** Flags of the publish calls *)

(** C3 fails as stated: the acknowledgment of "open" is published with
    QoS 1 but with retain flag 0. *)
Lemma open_ack_is_not_retained :
  mqtt5_event_handler quiet_platform MQTT_EVENT_DATA
    (data_event "/dorra/control" "open") power_on
  = Ret tt (opened 7 power_on) /\
  calls (opened 7 power_on) =
    [Gpio_set_level 2 1;
     Mqtt_publish 7 "/dorra/status" "it's open" 0 1 0] /\
  forallb qos1_retained (calls (opened 7 power_on)) = false.
Proof.
  split; [|split; reflexivity].
  rewrite mqtt5_event_handler_data.
  rewrite handle_mqtt_data_on_control by reflexivity.
  now apply process_control_message_open.
Qed.

(** C3, as amended: every publish the handler issues, on whatever event,
    goes to the status topic with QoS 1, and the "it's open" / "it's closed"
    acknowledgments carry retain flag 0. *)
Theorem publishes_are_qos1_and_acks_unretained plat id ev w :
  exists w' cs,
    mqtt5_event_handler plat id ev w = Ret tt w' /\
    calls w' = (calls w ++ cs)%list /\
    Forall qos1_ack_unretained cs.
Proof.
  destruct (mqtt5_event_handler_cases plat id ev w) as [H|[H|[H|H]]];
    rewrite H.
  - exists w, []. rewrite app_nil_r. repeat split. constructor.
  - eexists _, _. split; [reflexivity|]. split; [reflexivity|].
    repeat constructor.
  - eexists _, _. split; [reflexivity|]. split; [reflexivity|].
    repeat constructor.
  - eexists _, _. split; [reflexivity|]. split; [reflexivity|].
    repeat constructor.
Qed.

(** ** Which buffers the bounded comparisons take for a literal *)

Lemma prefix_empty s : String.prefix "" s = true.
Proof. now destruct s. Qed.

Lemma prefix_cons a s1 b s2 :
  String.prefix (String a s1) (String b s2) =
  Ascii.eqb a b && String.prefix s1 s2.
Proof.
  simpl. destruct (ascii_dec a b) as [->|Hne].
  - now rewrite Ascii.eqb_refl.
  - apply Ascii.eqb_neq in Hne. now rewrite Hne.
Qed.

(** Bounded by the buffer's length, [strncmp] answers 0 exactly on the
    buffers [accepts] describes; here the buffer may hold NUL bytes. *)
Lemma strncmp_zero_iff_accepts s lit :
  nul_free lit = true ->
  strncmp s lit (String.length s) = 0 <-> accepts lit s = true.
Proof.
  revert lit. induction s as [|c s IH]; intros lit Hlit.
  - unfold accepts. rewrite prefix_empty. simpl. tauto.
  - destruct lit as [|c' lit]; unfold accepts;
      cbn [strncmp cur next String.length];
      [ change (String.append "" (String NUL "")) with (String NUL "")
      | change (String.append (String c' lit) (String NUL ""))
          with (String c' (String.append lit (String NUL ""))) ];
      rewrite !prefix_cons.
    + cbn [String.prefix]. rewrite prefix_empty, andb_true_r, orb_false_l.
      destruct (Ascii.eqb_spec c NUL) as [->|Hc]; cbn [negb].
      * now rewrite Ascii.eqb_refl.
      * assert (Hb : Ascii.eqb NUL c = false) by (apply Ascii.eqb_neq; congruence).
        rewrite Hb. split; [|discriminate].
        intros H. exfalso. revert H. now apply uchar_diff.
    + simpl in Hlit. apply andb_prop in Hlit as [Hc' Hlit].
      apply negb_true_iff, Ascii.eqb_neq in Hc'.
      destruct (Ascii.eqb_spec c c') as [->|Hne]; cbn [negb].
      * rewrite Ascii.eqb_refl, !andb_true_l.
        destruct (Ascii.eqb_spec c' NUL) as [He|_]; [contradiction|].
        apply IH, Hlit.
      * assert (Hb : Ascii.eqb c' c = false) by (apply Ascii.eqb_neq; congruence).
        rewrite Hb. split; [|discriminate].
        intros H. exfalso. revert H. now apply uchar_diff.
Qed.

Lemma strncmp_accepts_true s lit :
  nul_free lit = true -> accepts lit s = true ->
  strncmp s lit (String.length s) = 0.
Proof. intros Hlit H. now apply strncmp_zero_iff_accepts. Qed.

Lemma strncmp_accepts_false s lit :
  nul_free lit = true -> accepts lit s = false ->
  strncmp s lit (String.length s) <> 0.
Proof.
  intros Hlit H Hz. apply strncmp_zero_iff_accepts in Hz; [|assumption].
  congruence.
Qed.

(** X1: [process_control_message], called with the length of its buffer,
    runs the open branch exactly on the payloads that are a prefix of "open"
    or start with "open" and a NUL byte, otherwise the close branch exactly
    on those that are a prefix of "close" or start with "close" and a NUL
    byte, and does nothing on every other payload. *)
Theorem process_control_message_classifies plat d c w :
  process_control_message plat d (String.length d) c w =
  Ret tt (if accepts "open" d then opened c w
          else if accepts "close" d then closed c w
          else w).
Proof.
  destruct (accepts "open" d) eqn:Ho.
  - apply process_control_message_open.
    now apply strncmp_accepts_true.
  - apply strncmp_accepts_false in Ho; [|reflexivity].
    destruct (accepts "close" d) eqn:Hc.
    + apply process_control_message_close; [assumption|].
      now apply strncmp_accepts_true.
    + apply strncmp_accepts_false in Hc; [|reflexivity].
      now apply process_control_message_unknown.
Qed.

(** X2: [handle_mqtt_data] passes the payload on exactly when the topic of
    the event is a prefix of "/dorra/control" or starts with that string and
    a NUL byte; on every other topic it does nothing. *)
Theorem handle_mqtt_data_topic_gate plat ev c w :
  handle_mqtt_data plat ev c w =
  if accepts "/dorra/control" (topic ev)
  then process_control_message plat (data ev) (data_len ev) c w
  else Ret tt w.
Proof.
  unfold handle_mqtt_data, topic_len.
  destruct (accepts "/dorra/control" (topic ev)) eqn:Ht.
  - apply strncmp_accepts_true in Ht; [|reflexivity].
    unfold TOPIC_CONTROL. now rewrite Ht.
  - apply strncmp_accepts_false in Ht; [|reflexivity].
    apply Z.eqb_neq in Ht. unfold TOPIC_CONTROL. now rewrite Ht.
Qed.

(** X3: with the bound [data_len], [process_control_message] decides on the
    first [data_len] bytes alone: whatever follows the payload in the
    receive buffer has no influence. *)
Theorem process_control_message_reads_data_len_bytes plat d rest c w :
  process_control_message plat (String.append d rest) (String.length d) c w =
  process_control_message plat d (String.length d) c w.
Proof.
  unfold process_control_message.
  now rewrite !strncmp_buffer_bound.
Qed.

(** ** Events that are neither connect nor data *)

(** X4: an event whose id is neither [MQTT_EVENT_CONNECTED] nor
    [MQTT_EVENT_DATA] (disconnect, published, subscribed, error, and every
    id of the default branch) leaves the world as it is. *)
Theorem other_events_change_nothing plat id ev w :
  id <> MQTT_EVENT_CONNECTED ->
  id <> MQTT_EVENT_DATA ->
  mqtt5_event_handler plat id ev w = Ret tt w.
Proof.
  intros Hc Hd. unfold mqtt5_event_handler.
  apply Z.eqb_neq in Hc, Hd. rewrite Hc, Hd.
  destruct (id =? MQTT_EVENT_DISCONNECTED); [reflexivity|].
  destruct (id =? MQTT_EVENT_PUBLISHED); [reflexivity|].
  destruct (id =? MQTT_EVENT_SUBSCRIBED); [reflexivity|].
  destruct (id =? MQTT_EVENT_ERROR); reflexivity.
Qed.

Lemma other_events_change_nothing_witness :
  mqtt5_event_handler quiet_platform MQTT_EVENT_ERROR
    (data_event "/dorra/control" "open") (opened 7 power_on)
  = Ret tt (opened 7 power_on).
Proof.
  apply (other_events_change_nothing quiet_platform MQTT_EVENT_ERROR
           (data_event "/dorra/control" "open") (opened 7 power_on));
    discriminate.
Defined.

(** ** Sequences of events *)

Section Dispatch.

Variable plat : platform.

Lemma mqtt5_event_handler_step id ev w :
  (id = MQTT_EVENT_CONNECTED /\
   mqtt5_event_handler plat id ev w = Ret tt (connected (client ev) w)) \/
  (id <> MQTT_EVENT_CONNECTED /\
   (mqtt5_event_handler plat id ev w = Ret tt w \/
    mqtt5_event_handler plat id ev w = Ret tt (opened (client ev) w) \/
    mqtt5_event_handler plat id ev w = Ret tt (closed (client ev) w))).
Proof.
  destruct (Z.eq_dec id MQTT_EVENT_CONNECTED) as [->|Hne].
  - left. split; [reflexivity|]. apply handle_mqtt_connected_run.
  - right. split; [assumption|].
    destruct (Z.eq_dec id MQTT_EVENT_DATA) as [->|Hd].
    + rewrite mqtt5_event_handler_data. apply handle_mqtt_data_cases.
    + left. unfold mqtt5_event_handler.
      apply Z.eqb_neq in Hne, Hd. rewrite Hne, Hd.
      repeat match goal with
             | |- context [if ?b then _ else _] => destruct b
             end; reflexivity.
Qed.

Lemma dispatch_cons id ev rest w :
  dispatch plat ((id, ev) :: rest) w =
  match mqtt5_event_handler plat id ev w with
  | Ret _ w1 => dispatch plat rest w1
  | Abort code => Abort code
  end.
Proof. reflexivity. Qed.

Lemma dispatch_app evs evs' w :
  dispatch plat (evs ++ evs')%list w =
  match dispatch plat evs w with
  | Ret _ w1 => dispatch plat evs' w1
  | Abort code => Abort code
  end.
Proof.
  revert w. induction evs as [|[id ev] evs IH]; intros w; [reflexivity|].
  rewrite <- app_comm_cons, !dispatch_cons.
  destruct (mqtt5_event_handler plat id ev w); [apply IH | reflexivity].
Qed.

(** A property kept by the three effectful paths is kept by every sequence
    of events, and no sequence aborts. *)
Lemma dispatch_invariant (P : world -> Prop) :
  (forall c w, P w -> P (opened c w)) ->
  (forall c w, P w -> P (closed c w)) ->
  (forall c w, P w -> P (connected c w)) ->
  forall evs w, P w -> exists w', dispatch plat evs w = Ret tt w' /\ P w'.
Proof.
  intros Hopen Hclose Hconn evs.
  induction evs as [|[id ev] evs IH]; intros w Hw.
  - exists w. split; [reflexivity | assumption].
  - rewrite dispatch_cons.
    destruct (mqtt5_event_handler_step id ev w) as [[_ H]|[_ [H|[H|H]]]];
      rewrite H; apply IH; auto.
Qed.

End Dispatch.

Lemma count_publish_app cs1 cs2 :
  count_publish (cs1 ++ cs2) = (count_publish cs1 + count_publish cs2)%nat.
Proof. unfold count_publish. now rewrite List.filter_app, List.length_app. Qed.

Lemma count_subscribe_app cs1 cs2 :
  count_subscribe (cs1 ++ cs2) =
  (count_subscribe cs1 + count_subscribe cs2)%nat.
Proof. unfold count_subscribe. now rewrite List.filter_app, List.length_app. Qed.

Lemma count_gpio_write_app cs1 cs2 :
  count_gpio_write (cs1 ++ cs2) =
  (count_gpio_write cs1 + count_gpio_write cs2)%nat.
Proof. unfold count_gpio_write. now rewrite List.filter_app, List.length_app. Qed.

Lemma count_connected_cons id ev evs :
  count_connected ((id, ev) :: evs) =
  ((if (id =? MQTT_EVENT_CONNECTED)%Z then 1 else 0) + count_connected evs)%nat.
Proof.
  unfold count_connected. simpl.
  now destruct (id =? MQTT_EVENT_CONNECTED).
Qed.

(** X5: whatever events arrive and in whatever order, the handler never
    aborts, and all it calls is [gpio_set_level] on the LED pin with level 0
    or 1, publish on the status topic and subscribe on the control topic;
    the latch of every other pin keeps its value. *)
Theorem handler_stays_within_its_interface plat evs w :
  exists w' cs,
    dispatch plat evs w = Ret tt w' /\
    calls w' = (calls w ++ cs)%list /\
    Forall handler_call cs /\
    forall pin, pin <> LED_GPIO_PIN -> gpio_out w' !! pin = gpio_out w !! pin.
Proof.
  destruct (dispatch_invariant plat
    (fun w' => exists cs, calls w' = (calls w ++ cs)%list /\
       Forall handler_call cs /\
       forall pin, pin <> LED_GPIO_PIN ->
                   gpio_out w' !! pin = gpio_out w !! pin)) with (evs := evs) (w := w)
    as (w' & Hrun & cs & Hcs & Hall & Hpins).
  - intros c w1 (cs & Hcs & Hall & Hpins).
    exists (cs ++ [Gpio_set_level LED_GPIO_PIN 1;
                   Mqtt_publish c TOPIC_STATUS MSG_OPEN_RESPONSE 0 1 0])%list.
    split; [simpl; now rewrite Hcs, app_assoc|]. split.
    + apply Forall_app. split; [assumption|].
      repeat (constructor; [cbn; auto|]). constructor.
    + intros pin Hpin. simpl. rewrite lookup_insert_ne by congruence. auto.
  - intros c w1 (cs & Hcs & Hall & Hpins).
    exists (cs ++ [Gpio_set_level LED_GPIO_PIN 0;
                   Mqtt_publish c TOPIC_STATUS MSG_CLOSE_RESPONSE 0 1 0])%list.
    split; [simpl; now rewrite Hcs, app_assoc|]. split.
    + apply Forall_app. split; [assumption|].
      repeat (constructor; [cbn; auto|]). constructor.
    + intros pin Hpin. simpl. rewrite lookup_insert_ne by congruence. auto.
  - intros c w1 (cs & Hcs & Hall & Hpins).
    exists (cs ++ [Mqtt_publish c TOPIC_STATUS MSG_CONNECTED 0 1 0;
                   Mqtt_subscribe c TOPIC_CONTROL 1])%list.
    split; [simpl; now rewrite Hcs, app_assoc|]. split.
    + apply Forall_app. split; [assumption|].
      repeat (constructor; [cbn; auto|]). constructor.
    + intros pin Hpin. simpl. auto.
  - exists []. rewrite app_nil_r. repeat split. constructor.
  - exists w', cs. auto.
Qed.

(** X6: once [app_main] has completed, the output state is defined and
    stays defined after every sequence of events. *)
Theorem output_state_stays_defined plat w a w0 evs :
  app_main plat w = Ret a w0 ->
  exists w' b,
    dispatch plat evs w0 = Ret tt w' /\ output_state w' = Some b.
Proof.
  intros Hboot. apply app_main_run in Hboot. subst w0.
  destruct (dispatch_invariant plat
    (fun w' => exists b, output_state w' = Some b))
    with (evs := evs) (w := booted plat w) as (w' & Hrun & b & Hb).
  - intros c w1 _. exists true. apply output_state_opened.
  - intros c w1 _. exists false. apply output_state_closed.
  - intros c w1 [b Hb]. exists b. exact Hb.
  - exists false. unfold output_state, booted. simpl.
    now rewrite lookup_insert_eq.
  - exists w', b. auto.
Qed.

Lemma output_state_stays_defined_witness :
  exists w' b,
    dispatch quiet_platform
      [(MQTT_EVENT_CONNECTED, data_event "" "");
       (MQTT_EVENT_DATA, data_event "/dorra/control" "open");
       (MQTT_EVENT_DISCONNECTED, data_event "" "")]
      (booted quiet_platform power_on) = Ret tt w' /\
    output_state w' = Some b.
Proof.
  apply (output_state_stays_defined quiet_platform power_on tt
           (booted quiet_platform power_on)).
  reflexivity.
Defined.

(** X7: over every sequence of events, the handler subscribes once per
    connected event, and its publishes are one per GPIO write plus one per
    connected event: every write of the output is acknowledged, and nothing
    else is published. *)
Theorem publishes_match_writes_and_connects plat evs w :
  exists w' cs,
    dispatch plat evs w = Ret tt w' /\
    calls w' = (calls w ++ cs)%list /\
    count_subscribe cs = count_connected evs /\
    count_publish cs = (count_gpio_write cs + count_connected evs)%nat.
Proof.
  revert w. induction evs as [|[id ev] evs IH]; intros w.
  - exists w, []. rewrite app_nil_r. repeat split.
  - rewrite dispatch_cons, count_connected_cons.
    destruct (mqtt5_event_handler_step plat id ev w)
      as [[-> H]|[Hne [H|[H|H]]]]; rewrite H;
      try (apply Z.eqb_neq in Hne; rewrite Hne).
    + destruct (IH (connected (client ev) w)) as (w' & cs & Hrun & Hcs & Hs & Hp).
      eexists w', (_ ++ cs)%list. split; [exact Hrun|].
      split; [rewrite Hcs; simpl; now rewrite <- app_assoc|].
      rewrite count_subscribe_app, count_publish_app, count_gpio_write_app,
        Hs, Hp. cbn. split; lia.
    + destruct (IH w) as (w' & cs & Hrun & Hcs & Hs & Hp).
      exists w', cs. auto.
    + destruct (IH (opened (client ev) w)) as (w' & cs & Hrun & Hcs & Hs & Hp).
      eexists w', (_ ++ cs)%list. split; [exact Hrun|].
      split; [rewrite Hcs; simpl; now rewrite <- app_assoc|].
      rewrite count_subscribe_app, count_publish_app, count_gpio_write_app,
        Hs, Hp. cbn. split; lia.
    + destruct (IH (closed (client ev) w)) as (w' & cs & Hrun & Hcs & Hs & Hp).
      eexists w', (_ ++ cs)%list. split; [exact Hrun|].
      split; [rewrite Hcs; simpl; now rewrite <- app_assoc|].
      rewrite count_subscribe_app, count_publish_app, count_gpio_write_app,
        Hs, Hp. cbn. split; lia.
Qed.

(** X8: after initialization, whatever events came before, a "close"
    command on the control topic puts the whole GPIO latch back to what
    [app_main] left: the LED pin is at the off level again and no other pin
    has moved. *)
Theorem close_restores_the_initial_latch plat w a w0 evs ev :
  app_main plat w = Ret a w0 ->
  topic ev = TOPIC_CONTROL ->
  data ev = "close" ->
  exists w',
    dispatch plat (evs ++ [(MQTT_EVENT_DATA, ev)])%list w0 = Ret tt w' /\
    gpio_out w' = gpio_out w0.
Proof.
  intros Hboot Ht Hd. apply app_main_run in Hboot. subst w0.
  destruct (dispatch_invariant plat
    (fun w1 => exists level,
       gpio_out w1 = <[LED_GPIO_PIN := level]> (gpio_out w)))
    with (evs := evs) (w := booted plat w) as (w1 & Hrun & level & Hlevel).
  - intros c w1 [level H]. exists 1. simpl. rewrite H.
    apply insert_insert_eq.
  - intros c w1 [level H]. exists 0. simpl. rewrite H.
    apply insert_insert_eq.
  - intros c w1 [level H]. exists level. exact H.
  - exists 0. reflexivity.
  - exists (closed (client ev) w1). split.
    + rewrite dispatch_app, Hrun, dispatch_cons, mqtt5_event_handler_data.
      rewrite handle_mqtt_data_on_control by assumption.
      unfold data_len. rewrite Hd.
      rewrite process_control_message_close; [reflexivity | discriminate | reflexivity].
    + simpl. rewrite Hlevel. apply insert_insert_eq.
Qed.

Lemma close_restores_the_initial_latch_witness :
  exists w',
    dispatch quiet_platform
      ([(MQTT_EVENT_CONNECTED, data_event "" "");
        (MQTT_EVENT_DATA, data_event "/dorra/control" "open")] ++
       [(MQTT_EVENT_DATA, data_event "/dorra/control" "close")])%list
      (booted quiet_platform power_on) = Ret tt w' /\
    gpio_out w' = gpio_out (booted quiet_platform power_on).
Proof.
  apply (close_restores_the_initial_latch quiet_platform power_on tt
           (booted quiet_platform power_on)); reflexivity.
Defined.

(** X9: [app_main] runs its five checked calls in program order
    ([nvs_flash_init], [esp_netif_init], [esp_event_loop_create_default],
    [gpio_config], [example_connect]) and aborts with the result of the
    first one that is not [ESP_OK]; when all five succeed it completes, with
    the LED written off and the MQTT client started. *)
Theorem app_main_stops_at_first_failure plat w :
  app_main plat w =
  match first_failure (checked_results plat) with
  | Some code => Abort code
  | None => Ret tt (booted plat w)
  end.
Proof.
  unfold app_main, led_init, led_set_state, mqtt5_app_start, ESP_ERROR_CHECK,
    bind, nvs_flash_init, esp_netif_init, esp_event_loop_create_default,
    gpio_config, gpio_set_level, example_connect, esp_mqtt_client_init,
    esp_mqtt_client_register_event, esp_mqtt_client_start, emit, ret,
    checked_results.
  simpl.
  destruct (nvs_flash_init_result plat =? ESP_OK); [simpl|reflexivity].
  destruct (esp_netif_init_result plat =? ESP_OK); [simpl|reflexivity].
  destruct (esp_event_loop_create_default_result plat =? ESP_OK);
    [simpl|reflexivity].
  destruct (gpio_config_result plat _ =? ESP_OK); [simpl|reflexivity].
  destruct (example_connect_result plat =? ESP_OK); [simpl|reflexivity].
  unfold booted, boot_calls. simpl. now rewrite <- !app_assoc.
Qed.

(** X10: [led_set_state] makes one write to the LED pin, after which the
    output state reads as the state asked for, for both polarities of the
    argument; no other pin is written. *)
Theorem led_set_state_then_read (state : bool) (w : world) :
  exists w',
    led_set_state state w = Ret tt w' /\
    output_state w' = Some state /\
    calls w' =
      (calls w ++ [Gpio_set_level GPIO_NUM_2 (if state then 1 else 0)])%list /\
    forall pin, pin <> GPIO_NUM_2 -> gpio_out w' !! pin = gpio_out w !! pin.
Proof.
  eexists. split; [reflexivity|]. split; [|split].
  - unfold output_state. simpl. rewrite lookup_insert_eq. now destruct state.
  - simpl. now destruct state.
  - intros pin Hpin. simpl. apply lookup_insert_ne. unfold LED_GPIO_PIN.
    congruence.
Qed.

(** ** What the client returns is never looked at *)

Lemma process_control_message_any_platform plat plat' d n c w :
  process_control_message plat d n c w =
  process_control_message plat' d n c w.
Proof.
  destruct (Z.eq_dec (strncmp d CMD_OPEN n) 0) as [Ho|Ho].
  - now rewrite !process_control_message_open.
  - destruct (Z.eq_dec (strncmp d CMD_CLOSE n) 0) as [Hc|Hc].
    + now rewrite !process_control_message_close.
    + now rewrite !process_control_message_unknown.
Qed.

Lemma mqtt5_event_handler_any_platform plat plat' id ev w :
  mqtt5_event_handler plat id ev w = mqtt5_event_handler plat' id ev w.
Proof.
  unfold mqtt5_event_handler.
  destruct (id =? MQTT_EVENT_CONNECTED).
  { now rewrite !handle_mqtt_connected_run. }
  destruct (id =? MQTT_EVENT_DISCONNECTED); [reflexivity|].
  destruct (id =? MQTT_EVENT_PUBLISHED); [reflexivity|].
  destruct (id =? MQTT_EVENT_SUBSCRIBED); [reflexivity|].
  destruct (id =? MQTT_EVENT_DATA); [|reflexivity].
  unfold handle_mqtt_data.
  destruct (strncmp (topic ev) TOPIC_CONTROL (topic_len ev) =? 0);
    [apply process_control_message_any_platform | reflexivity].
Qed.

(** X11: the message ids that publish and subscribe return, a failure
    result included, have no influence on the handler: under any two
    platforms the same sequence of events leads to the same world, with the
    same calls. *)
Theorem handler_ignores_client_results plat plat' evs w :
  dispatch plat evs w = dispatch plat' evs w.
Proof.
  revert w. induction evs as [|[id ev] evs IH]; intros w; [reflexivity|].
  rewrite !dispatch_cons.
  rewrite (mqtt5_event_handler_any_platform plat plat').
  destruct (mqtt5_event_handler plat' id ev w); [apply IH | reflexivity].
Qed.
